(** * DetailModelView of django-material: a shallow embedding

    Source: [material/frontend/views/detail.py].  The file defines one class,
    [DetailModelView], a thin wrapper around Django's [generic.DetailView].
    Python objects become records, [None]-able attributes become [option],
    methods that can raise return [result], and the calls into Django that the
    class makes (queryset lookup, form factory, URL reversal, the base class
    methods) are the fields of the [Framework] interface. *)

From stdpp Require Import gmap strings list fin_maps.
From Stdlib Require Import Ascii String.

Local Open Scope string_scope.

(** ** Python values *)

(** The values an attribute of a model instance can hold.  [VMethod r] is a
    bound method taking no argument and returning [r] when called. *)
Inductive value : Type :=
| VNone
| VStr (s : string)
| VInt (z : Z)
| VBool (b : bool)
| VMethod (ret : value).

(** Exceptions.  The first four are raised by [detail.py] itself or by the
    Python runtime while it executes [detail.py]; [FrameworkError] is an
    exception that escapes from a call into Django and is propagated
    unchanged. *)
Inductive exn : Type :=
| PermissionDenied
| ImproperlyConfigured (msg : string)
| AttributeError (msg : string)
| TypeError (msg : string)
| FrameworkError (msg : string).

Definition result (A : Type) : Type := exn + A.

Definition ok {A} (a : A) : result A := inr a.
Definition raise {A} (e : exn) : result A := inl e.

Definition bind {A B} (m : result A) (k : A -> result B) : result B :=
  match m with
  | inl e => inl e
  | inr a => k a
  end.

(** A call into the framework: its exception, if any, is propagated. *)
Definition call {A} (m : string + A) : result A :=
  match m with
  | inl msg => inl (FrameworkError msg)
  | inr a => inr a
  end.

Notation "'let*' x ':=' m 'in' k" := (bind m (fun x => k))
  (at level 10, x name, m at level 100, k at level 200).

(** One step of a monadic computation that is known to return. *)
Ltac bind_inv H :=
  match type of H with
  | bind ?m _ = _ =>
      let E := fresh "E" in
      destruct m eqn:E; simpl in H; [discriminate H|]
  end.

(** ** [str.title], on ASCII strings *)

Definition is_lower (c : ascii) : bool :=
  Nat.leb 97 (nat_of_ascii c) && Nat.leb (nat_of_ascii c) 122.

Definition is_upper (c : ascii) : bool :=
  Nat.leb 65 (nat_of_ascii c) && Nat.leb (nat_of_ascii c) 90.

Definition to_upper (c : ascii) : ascii :=
  if is_lower c then ascii_of_nat (nat_of_ascii c - 32) else c.

Definition to_lower (c : ascii) : ascii :=
  if is_upper c then ascii_of_nat (nat_of_ascii c + 32) else c.

(** [prev_cased] tells whether the previous character was a cased letter: a
    letter that follows one is lowered, a letter that does not is raised. *)
Fixpoint title_from (prev_cased : bool) (s : string) : string :=
  match s with
  | EmptyString => EmptyString
  | String c rest =>
      if is_lower c || is_upper c
      then String (if prev_cased then to_lower c else to_upper c)
                  (title_from true rest)
      else String c (title_from false rest)
  end.

Definition title (s : string) : string := title_from false s.

(** ** Model metadata, instances, requests *)

(** A field of a model: [isinstance(field, models.AutoField)],
    [field.auto_created], [field.get_attname()], [field.verbose_name]. *)
Record Field : Type := {
  is_auto_field : bool;
  auto_created : bool;
  get_attname : string;
  verbose_name : string
}.

(** [Model._meta] *)
Record Options : Type := {
  app_label : string;
  model_name : string;
  fields_of : list Field
}.

(** A model class. *)
Record Model : Type := {
  model_class_name : string;
  _meta : Options
}.

(** A model instance: its class, its primary key and its attribute
    namespace, the one [hasattr] and [getattr] look into. *)
Record Instance : Type := {
  __class__ : Model;
  pk : value;
  attrs : gmap string value
}.

(** [request.user]; [has_perm perm obj] is [user.has_perm(perm, obj=obj)],
    the answer of the permission backend. *)
Record User : Type := {
  username : string;
  has_perm : string -> option Instance -> bool
}.

Record Request : Type := {
  user : User
}.

(** The optional viewset collaborator. *)
Record Viewset : Type := {
  vs_has_view_permission : Request -> option Instance -> bool;
  vs_has_change_permission : Request -> option Instance -> bool;
  vs_has_delete_permission : Request -> option Instance -> bool
}.

(** The value of the [fields] attribute: the string ['__all__'] or a list of
    field names. *)
Inductive FieldSpec : Type :=
| FieldsStr (s : string)
| FieldsList (names : list string).

(** A form class: one written by hand, or one built by the form factory. *)
Inductive FormClass : Type :=
| CustomForm (name : string)
| ModelForm (m : Model) (fs : FieldSpec).

Record QuerySet : Type := {
  qs_model : Model
}.

(** The value of the [form_class] attribute: [None], a form class, which
    like every ordinary class is true, or a value that is not [None] and
    yet false where its truth value is asked. *)
Inductive FormClassAttr : Type :=
| NoFormClass
| FalsyFormClass
| TrueFormClass (fc : FormClass).

(** The attributes of a [DetailModelView] instance.  [viewset], [form_class],
    [layout] and [fields] are the class attributes of [detail.py]; the others
    are inherited from [generic.DetailView].  An [object] attribute that is
    absent and one that is [None] are both [None] here.  The answers of the
    viewset and of [has_perm] are those of calls that return. *)
Record View : Type := {
  class_name : string;
  viewset : option Viewset;
  form_class_attr : FormClassAttr;
  layout : option string;
  fields : option FieldSpec;
  model : option Model;
  object : option Instance;
  request : Request;
  template_name : option string;
  template_name_suffix : string
}.

(** Truth value of the [form_class] attribute, as [if self.form_class]
    asks it. *)
Definition truthy (a : FormClassAttr) : bool :=
  match a with
  | TrueFormClass _ => true
  | FalsyFormClass => false
  | NoFormClass => false
  end.

(** [self.form_class] where it is true: the form class that
    [get_form_class] then returns. *)
Definition form_class (v : View) : option FormClass :=
  match form_class_attr v with
  | TrueFormClass fc => Some fc
  | FalsyFormClass => None
  | NoFormClass => None
  end.

(** ** [__init__] *)

(** [__init__ v] is the body of the constructor after the call to the base
    initialiser; [v] holds the attributes as the class definition and the
    keyword arguments of the constructor have set them. *)
Definition __init__ (v : View) : View :=
  match form_class_attr v, fields v with
  | NoFormClass, None =>
      {| class_name := class_name v;
         viewset := viewset v;
         form_class_attr := form_class_attr v;
         layout := layout v;
         fields := Some (FieldsStr "__all__");
         model := model v;
         object := object v;
         request := request v;
         template_name := template_name v;
         template_name_suffix := template_name_suffix v |}
  | _, _ => v
  end.

(** ** [get_object_data] *)

Definition choice_display_attr (f : Field) : string :=
  "get_" +:+ get_attname f +:+ "_display".

(** Calling a value: only a method can be called. *)
Definition call_value (x : value) : result value :=
  match x with
  | VMethod r => ok r
  | _ => raise (TypeError "object is not callable")
  end.

(** [getattr(obj, name)] *)
Definition getattr (obj : Instance) (name : string) : result value :=
  match attrs obj !! name with
  | Some x => ok x
  | None => raise (AttributeError name)
  end.

Definition hasattr (obj : Instance) (name : string) : bool :=
  bool_decide (is_Some (attrs obj !! name)).

(** The generator of [get_object_data], run to its end over the fields that
    remain: the pairs it yields, in order, and the exception that stops it,
    if one does. *)
Fixpoint object_data_over (obj : Instance) (fs : list Field)
  : list (string * value) * option exn :=
  match fs with
  | [] => ([], None)
  | field :: rest =>
      if is_auto_field field then object_data_over obj rest
      else if auto_created field then object_data_over obj rest
      else
        if hasattr obj (choice_display_attr field) then
          match bind (getattr obj (choice_display_attr field)) call_value with
          | inl e => ([], Some e)
          | inr _ => object_data_over obj rest
          end
        else
          match getattr obj (get_attname field) with
          | inl e => ([], Some e)
          | inr VNone => object_data_over obj rest
          | inr x =>
              let (pairs, stop) := object_data_over obj rest in
              ((title (verbose_name field), x) :: pairs, stop)
          end
  end.

(** [self.get_object_data()], iterated: [self.object._meta.fields] fails on
    an object that is [None]. *)
Definition get_object_data (v : View) : list (string * value) * option exn :=
  match object v with
  | None => ([], Some (AttributeError "_meta"))
  | Some obj => object_data_over obj (fields_of (_meta (__class__ obj)))
  end.

(** A field that [get_object_data] does not skip at once. *)
Definition displayable (f : Field) : bool :=
  negb (is_auto_field f) && negb (auto_created f).

(** ** Permission checks *)

(** Modelled from the spec: [get_permission_codename] belongs to
    [django.contrib.auth] and is not part of [detail.py]; the spec gives the
    permission string as ["<app_label>.<action>_<model_name>"], so the
    codename is ["<action>_<model_name>"]. *)
Definition get_permission_codename (action : string) (opts : Options) : string :=
  action +:+ "_" +:+ model_name opts.

(** [self.model._meta] *)
Definition model_meta (v : View) : result Options :=
  match model v with
  | Some m => ok (_meta m)
  | None => raise (AttributeError "_meta")
  end.

(** ['{}.{}'.format(opts.app_label, codename)] *)
Definition perm_string (action : string) (opts : Options) : string :=
  app_label opts +:+ "." +:+ get_permission_codename action opts.

Definition has_change_permission (v : View) (request : Request)
    (obj : option Instance) : result bool :=
  match viewset v with
  | Some vs => ok (vs_has_change_permission vs request obj)
  | None =>
      let* opts := model_meta v in
      let codename := get_permission_codename "change" opts in
      ok (has_perm (user request) (app_label opts +:+ "." +:+ codename) obj)
  end.

Definition has_delete_permission (v : View) (request : Request)
    (obj : option Instance) : result bool :=
  match viewset v with
  | Some vs => ok (vs_has_delete_permission vs request obj)
  | None =>
      let* opts := model_meta v in
      let codename := get_permission_codename "delete" opts in
      ok (has_perm (user request) (app_label opts +:+ "." +:+ codename) obj)
  end.

Definition has_view_permission (v : View) (request : Request)
    (obj : option Instance) : result bool :=
  match viewset v with
  | Some vs => ok (vs_has_view_permission vs request obj)
  | None =>
      let* opts := model_meta v in
      let codename := get_permission_codename "view" opts in
      let view_perm := app_label opts +:+ "." +:+ codename in
      if has_perm (user request) view_perm obj then ok true
      else has_change_permission v request obj
  end.

(** ** The calls into Django *)

(** A form instance, [form_class(instance=obj)]. *)
Record Form : Type := {
  form_cls : FormClass;
  form_instance : option Instance
}.

(** What a template context can hold. *)
Inductive ctx_value : Type :=
| CObjectData (gen : list (string * value) * option exn)
| CUrl (url : string)
| CForm (f : Form)
| CObject (obj : Instance)
| CView (v : View).

(** What [detail.py] calls and does not define.  Each call can raise; the
    exception is given by its message. *)
Class Framework : Type := {
  (** [super().get_object()] *)
  super_get_object : View -> string + Instance;
  (** [self.get_queryset()] *)
  get_queryset : View -> string + QuerySet;
  (** [model_forms.modelform_factory(model, fields=fields)] *)
  modelform_factory : Model -> FieldSpec -> string + FormClass;
  (** [reverse(viewname, args=args)] *)
  reverse : string -> list value -> string + string;
  (** [form_class(instance=obj)] *)
  instantiate : FormClass -> option Instance -> string + Form;
  (** [super().get_context_data], applied to the keyword arguments *)
  super_get_context_data :
    View -> gmap string ctx_value -> string + gmap string ctx_value
}.

(** ** [get_object] *)

Definition get_object `{Framework} (v : View) : result Instance :=
  let* obj := call (super_get_object v) in
  let* allowed := has_view_permission v (request v) (Some obj) in
  if negb allowed then raise PermissionDenied else ok obj.

(** ** [get_form_class] *)

Definition both_msg : string :=
  "Specifying both 'fields' and 'form_class' is not permitted.".

Definition missing_fields_msg (cls : string) : string :=
  "Using ModelFormMixin (base class of " +:+ cls +:+
  ") without the 'fields' attribute is prohibited.".

(** The model a form is built for: the explicit one, else the class of the
    current object, else the model of the queryset. *)
Definition resolve_model `{Framework} (v : View) : result Model :=
  match model v with
  | Some m => ok m
  | None =>
      match object v with
      | Some obj => ok (__class__ obj)
      | None =>
          let* qs := call (get_queryset v) in
          ok (qs_model qs)
      end
  end.

Definition get_form_class `{Framework} (v : View) : result FormClass :=
  if bool_decide (is_Some (fields v)) && truthy (form_class_attr v) then
    raise (ImproperlyConfigured both_msg)
  else
    match form_class v with
    | Some fc => ok fc
    | None =>
        let* m := resolve_model v in
        match fields v with
        | None =>
            raise (ImproperlyConfigured (missing_fields_msg (class_name v)))
        | Some fs => call (modelform_factory m fs)
        end
    end.

(** ** [get_context_data] *)

(** [self.object.pk] *)
Definition object_pk (v : View) : result value :=
  match object v with
  | Some obj => ok (pk obj)
  | None => raise (AttributeError "pk")
  end.

Definition get_context_data `{Framework} (v : View)
    (kwargs : gmap string ctx_value) : result (gmap string ctx_value) :=
  let* opts := model_meta v in
  let kwargs := <["object_data" := CObjectData (get_object_data v)]> kwargs in
  let* can_change := has_change_permission v (request v) (object v) in
  let* kwargs :=
    (if can_change then
       let* key := object_pk v in
       let* url :=
         call (reverse (app_label opts +:+ ":" +:+ model_name opts +:+ "_change")
                       [key]) in
       ok (<["change_url" := CUrl url]> kwargs)
     else ok kwargs) in
  let* can_delete := has_delete_permission v (request v) (object v) in
  let* kwargs :=
    (if can_delete then
       let* key := object_pk v in
       let* url :=
         call (reverse (app_label opts +:+ ":" +:+ model_name opts +:+ "_delete")
                       [key]) in
       ok (<["delete_url" := CUrl url]> kwargs)
     else ok kwargs) in
  let* fc := get_form_class v in
  let* form := call (instantiate fc (object v)) in
  let kwargs := <["form" := CForm form]> kwargs in
  call (super_get_context_data v kwargs).

(** ** [get_template_names] *)

Definition get_template_names (v : View) : result (list string) :=
  match template_name v with
  | None =>
      let* opts := model_meta v in
      ok [ app_label opts +:+ "/" +:+ model_name opts +:+
             template_name_suffix v +:+ ".html";
           "material/frontend/views/detail.html" ]
  | Some name => ok [name]
  end.

(** ** Viewsets *)

(** A viewset that lets everybody change and nobody view. *)
Definition change_only_viewset : Viewset :=
  {| vs_has_view_permission := fun _ _ => false;
     vs_has_change_permission := fun _ _ => true;
     vs_has_delete_permission := fun _ _ => false |}.

(** A viewset that asks the permission backend itself, through the user of
    the request it is given. *)
Definition backend_viewset (opts : Options) : Viewset :=
  {| vs_has_view_permission := fun r o =>
       has_perm (user r) (perm_string "view" opts) o;
     vs_has_change_permission := fun r o =>
       has_perm (user r) (perm_string "change" opts) o;
     vs_has_delete_permission := fun r o =>
       has_perm (user r) (perm_string "delete" opts) o |}.

Definition with_viewset (vs : Viewset) (v : View) : View :=
  {| class_name := class_name v;
     viewset := Some vs;
     form_class_attr := form_class_attr v;
     layout := layout v;
     fields := fields v;
     model := model v;
     object := object v;
     request := request v;
     template_name := template_name v;
     template_name_suffix := template_name_suffix v |}.

(** ** A sample project *)

(** A [shop.Product] model: an automatic primary key, a name, a status
    with choices, a description, and a link created by the framework. *)
Module Sample.

Definition id_field : Field :=
  {| is_auto_field := true; auto_created := true;
     get_attname := "id"; verbose_name := "ID" |}.

Definition name_field : Field :=
  {| is_auto_field := false; auto_created := false;
     get_attname := "name"; verbose_name := "product name" |}.

Definition status_field : Field :=
  {| is_auto_field := false; auto_created := false;
     get_attname := "status"; verbose_name := "status" |}.

Definition description_field : Field :=
  {| is_auto_field := false; auto_created := false;
     get_attname := "description"; verbose_name := "description" |}.

Definition link_field : Field :=
  {| is_auto_field := false; auto_created := true;
     get_attname := "item_ptr_id"; verbose_name := "item ptr" |}.

Definition product : Model :=
  {| model_class_name := "Product";
     _meta := {| app_label := "shop"; model_name := "product";
                 fields_of := [id_field; name_field; status_field;
                               description_field; link_field] |} |}.

(** A lamp, whose status ["A"] displays as ["Active"]. *)
Definition lamp : Instance :=
  {| __class__ := product;
     pk := VInt 1;
     attrs := <["id" := VInt 1]>
             (<["name" := VStr "Lamp"]>
             (<["status" := VStr "A"]>
             (<["get_status_display" := VMethod (VStr "Active")]>
             (<["description" := VNone]>
             (<["item_ptr_id" := VInt 1]> ∅))))) |}.

Definition grants (perms : list string) : User :=
  {| username := "ann";
     has_perm := fun perm _ => bool_decide (perm ∈ perms) |}.

Definition request_with (perms : list string) : Request :=
  {| user := grants perms |}.

(** The attributes a view has when nothing is configured. *)
Definition blank (r : Request) : View :=
  {| class_name := "DetailModelView";
     viewset := None; form_class_attr := NoFormClass; layout := None; fields := None;
     model := None; object := None; request := r;
     template_name := None; template_name_suffix := "_detail" |}.

(** A view of the lamp, constructed for [product] with no other option. *)
Definition lamp_view (r : Request) : View :=
  __init__ {| class_name := "DetailModelView";
          viewset := None; form_class_attr := NoFormClass; layout := None;
          fields := None;
          model := Some product; object := Some lamp; request := r;
          template_name := None; template_name_suffix := "_detail" |}.

(** A framework in the manner of Django: the queryset comes from the
    model and is missing without one, the form factory and the URL
    resolver succeed, and the base context adds the object and the view. *)
Definition django : Framework :=
  {| super_get_object := fun v =>
       match object v with
       | Some obj => inr obj
       | None => inl "Http404"
       end;
     get_queryset := fun v =>
       match model v with
       | Some m => inr {| qs_model := m |}
       | None => inl "ImproperlyConfigured: the view is missing a QuerySet"
       end;
     modelform_factory := fun m fs => inr (ModelForm m fs);
     reverse := fun name _ => inr ("/" +:+ name +:+ "/");
     instantiate := fun fc obj =>
       inr {| form_cls := fc; form_instance := obj |};
     super_get_context_data := fun v kwargs =>
       let base : gmap string ctx_value :=
         match object v with
         | Some obj => {[ "object" := CObject obj ]}
         | None => ∅
         end in
       let context := kwargs ∪ base in
       match context !! "view" with
       | Some _ => inr context
       | None => inr (<["view" := CView v]> context)
       end |}.

End Sample.

(** ** The generator, field by field *)

(** The exception the generator raises at a field, if it does: a choice
    display attribute that cannot be called, or a missing attribute. *)
Definition field_error (obj : Instance) (f : Field) : option exn :=
  if displayable f then
    match attrs obj !! choice_display_attr f with
    | Some (VMethod _) => None
    | Some _ => Some (TypeError "object is not callable")
    | None =>
        match attrs obj !! get_attname f with
        | Some _ => None
        | None => Some (AttributeError (get_attname f))
        end
    end
  else None.

(** The pair the generator yields at a field it gets past, if it yields
    one. *)
Definition field_pair (obj : Instance) (f : Field) : option (string * value) :=
  if displayable f && negb (hasattr obj (choice_display_attr f)) then
    match attrs obj !! get_attname f with
    | Some VNone => None
    | Some x => Some (title (verbose_name f), x)
    | None => None
    end
  else None.

(** ** Variations of a view and of the sample *)

Definition with_object (o : option Instance) (v : View) : View :=
  {| class_name := class_name v;
     viewset := viewset v;
     form_class_attr := form_class_attr v;
     layout := layout v;
     fields := fields v;
     model := model v;
     object := o;
     request := request v;
     template_name := template_name v;
     template_name_suffix := template_name_suffix v |}.

Definition with_model (m : option Model) (v : View) : View :=
  {| class_name := class_name v;
     viewset := viewset v;
     form_class_attr := form_class_attr v;
     layout := layout v;
     fields := fields v;
     model := m;
     object := object v;
     request := request v;
     template_name := template_name v;
     template_name_suffix := template_name_suffix v |}.

(** What [get_context_data] does to the keyword arguments for one link:
    with the permission, the entry [key] becomes the URL that [reverse]
    gives for the view named after the model, with the primary key of the
    current object as its argument; without it, nothing changes. *)
Definition link `{Framework} (v : View) (opts : Options) (suffix key : string)
    (allowed : bool) (kw kw' : gmap string ctx_value) : Prop :=
  if allowed then
    exists obj url,
      object v = Some obj /\
      reverse (app_label opts +:+ ":" +:+ model_name opts +:+ suffix) [pk obj]
        = inr url /\
      kw' = <[key := CUrl url]> kw
  else kw' = kw.

(** The keyword arguments after one link: with the permission, [key] holds
    the URL. *)
Definition put_link (allowed : bool) (key url : string)
    (kw : gmap string ctx_value) : gmap string ctx_value :=
  if allowed then <[key := CUrl url]> kw else kw.

(** A user who is granted every permission. *)
Definition superuser_request : Request :=
  {| user := {| username := "root"; has_perm := fun _ _ => true |} |}.

(** A view of the lamp whose [form_class] is not [None] and false. *)
Definition falsy_form_view (r : Request) : View :=
  {| class_name := "DetailModelView";
     viewset := None; form_class_attr := FalsyFormClass; layout := None;
     fields := None;
     model := Some Sample.product; object := Some Sample.lamp; request := r;
     template_name := None; template_name_suffix := "_detail" |}.

(** A lamp that lost its [description] attribute. *)
Definition lamp_without_description : Instance :=
  {| __class__ := Sample.product;
     pk := VInt 1;
     attrs := delete "description" (attrs Sample.lamp) |}.

(** A viewset that allows everything to everybody. *)
Definition open_viewset : Viewset :=
  {| vs_has_view_permission := fun _ _ => true;
     vs_has_change_permission := fun _ _ => true;
     vs_has_delete_permission := fun _ _ => true |}.

(** A framework that differs from the sample one in the queryset lookup,
    which always fails. *)
Definition django_without_queryset : Framework :=
  {| super_get_object := @super_get_object Sample.django;
     get_queryset := fun _ => inl "no queryset";
     modelform_factory := @modelform_factory Sample.django;
     reverse := @reverse Sample.django;
     instantiate := @instantiate Sample.django;
     super_get_context_data := @super_get_context_data Sample.django |}.

Example title_words : title "product name" = "Product Name".
Proof. reflexivity. Qed.

Example title_lowers_inside : title "uRL of iTEM-x2y" = "Url Of Item-X2Y".
Proof. reflexivity. Qed.

Example lamp_object_data :
  get_object_data (Sample.lamp_view (Sample.request_with [])) =
  ([("Product Name", VStr "Lamp")], None).
Proof. vm_compute. reflexivity. Qed.

(** * Properties *)

(** ** [get_object_data] *)

(** Every pair the generator yields comes from a field that is displayable,
    has no choice-display accessor on the object, and holds a value other
    than [None]: the pair is the titled verbose name and that raw value. *)
Lemma object_data_over_origin (obj : Instance) (fs : list Field)
    (label : string) (x : value) :
  In (label, x) (object_data_over obj fs).1 ->
  exists field,
    In field fs /\ displayable field = true /\
    hasattr obj (choice_display_attr field) = false /\
    attrs obj !! get_attname field = Some x /\ x <> VNone /\
    label = title (verbose_name field).
Proof.
  induction fs as [|f rest IH]; simpl; [tauto|].
  assert (Hrest : In (label, x) (object_data_over obj rest).1 ->
                  exists field, In field (f :: rest) /\ displayable field = true /\
                    hasattr obj (choice_display_attr field) = false /\
                    attrs obj !! get_attname field = Some x /\ x <> VNone /\
                    label = title (verbose_name field)).
  { intros Hin. destruct (IH Hin) as (g & Hg & Hrem). exists g. simpl. tauto. }
  destruct (is_auto_field f) eqn:Hauto; [exact Hrest|].
  destruct (auto_created f) eqn:Hcreated; [exact Hrest|].
  destruct (hasattr obj (choice_display_attr f)) eqn:Hdisplay.
  - destruct (bind _ _); [simpl; tauto | exact Hrest].
  - unfold getattr.
    destruct (attrs obj !! get_attname f) as [y|] eqn:Hraw; simpl; [|tauto].
    destruct (object_data_over obj rest) as [pairs stop] eqn:Hgen.
    simpl in Hrest.
    assert (Hhere : (label, x) = (title (verbose_name f), y) -> y <> VNone ->
                    exists field, In field (f :: rest) /\ displayable field = true /\
                      hasattr obj (choice_display_attr field) = false /\
                      attrs obj !! get_attname field = Some x /\ x <> VNone /\
                      label = title (verbose_name field)).
    { intros Heq Hy. inversion Heq; subst. exists f. unfold displayable.
      rewrite Hauto, Hcreated. simpl. auto 10. }
    destruct y; simpl; try exact Hrest;
      (intros [Heq|Hin]; [apply Hhere; [by symmetry | discriminate] | by apply Hrest]).
Qed.

(** Fields that are not displayable can be removed from the model without
    changing what the generator does. *)
Lemma object_data_over_filter (obj : Instance) (fs : list Field) :
  object_data_over obj fs = object_data_over obj (List.filter displayable fs).
Proof.
  induction fs as [|f rest IH]; simpl; [reflexivity|].
  unfold displayable at 1.
  destruct (is_auto_field f) eqn:Hauto; simpl; [exact IH|].
  destruct (auto_created f) eqn:Hcreated; simpl; [exact IH|].
  rewrite Hauto, Hcreated, IH. reflexivity.
Qed.

(** A field with a choice-display accessor yields nothing, whatever the
    accessor returns. *)
Lemma choice_field_yields_nothing (obj : Instance) (f : Field) :
  hasattr obj (choice_display_attr f) = true ->
  (object_data_over obj [f]).1 = [].
Proof.
  intros Hdisplay. simpl. rewrite Hdisplay.
  destruct (is_auto_field f), (auto_created f); try reflexivity.
  destruct (bind _ _); reflexivity.
Qed.

(** C1, at a failing input.  The lamp's status has the choice-display
    accessor [get_status_display], which returns ["Active"]; the generator
    calls it and yields no pair for the status at all: neither the expanded
    value the docstring promises nor the raw one. *)
Theorem get_object_data_loses_choice_display :
  let v := Sample.lamp_view (Sample.request_with []) in
  hasattr Sample.lamp (choice_display_attr Sample.status_field) = true /\
  bind (getattr Sample.lamp (choice_display_attr Sample.status_field)) call_value
    = ok (VStr "Active") /\
  get_object_data v = ([("Product Name", VStr "Lamp")], None) /\
  ~ In ("Status", VStr "Active") (get_object_data v).1.
Proof.
  repeat split; try (vm_compute; reflexivity).
  vm_compute. intros [Heq|[]]. discriminate Heq.
Qed.

(** C6.  The pairs of [get_object_data] are those of the model with its
    automatic primary keys and auto-created fields removed, and every pair
    yielded comes from a field that is neither. *)
Theorem get_object_data_excludes_auto_fields (v : View) (obj : Instance) :
  object v = Some obj ->
  get_object_data v =
    object_data_over obj
      (List.filter displayable (fields_of (_meta (__class__ obj)))) /\
  forall label x,
    In (label, x) (get_object_data v).1 ->
    exists field,
      In field (fields_of (_meta (__class__ obj))) /\
      is_auto_field field = false /\ auto_created field = false /\
      label = title (verbose_name field) /\
      attrs obj !! get_attname field = Some x.
Proof.
  intros Hobj. unfold get_object_data. rewrite Hobj. split.
  - apply object_data_over_filter.
  - intros label x Hin.
    destruct (object_data_over_origin _ _ _ _ Hin)
      as (f & Hf & Hdisp & _ & Hraw & _ & Hlabel).
    exists f. unfold displayable in Hdisp.
    destruct (is_auto_field f), (auto_created f); try discriminate Hdisp.
    auto.
Qed.

Lemma get_object_data_excludes_auto_fields_witness :
  let v := Sample.lamp_view (Sample.request_with []) in
  object v = Some Sample.lamp /\
  get_object_data v =
    object_data_over Sample.lamp
      (List.filter displayable (fields_of (_meta (__class__ Sample.lamp)))) /\
  forall label x,
    In (label, x) (get_object_data v).1 ->
    exists field,
      In field (fields_of (_meta (__class__ Sample.lamp))) /\
      is_auto_field field = false /\ auto_created field = false /\
      label = title (verbose_name field) /\
      attrs Sample.lamp !! get_attname field = Some x.
Proof.
  split; [reflexivity|].
  apply (get_object_data_excludes_auto_fields
           (Sample.lamp_view (Sample.request_with [])) Sample.lamp).
  reflexivity.
Defined.

(** ** Permission checks *)

Section Permissions.

Variables (v : View) (req : Request) (obj : option Instance).

(** With a viewset, each check is the viewset's answer and no more. *)
Lemma has_view_permission_viewset (vs : Viewset) :
  viewset v = Some vs ->
  has_view_permission v req obj = ok (vs_has_view_permission vs req obj).
Proof. intros Hvs. unfold has_view_permission. by rewrite Hvs. Qed.

Lemma has_change_permission_viewset (vs : Viewset) :
  viewset v = Some vs ->
  has_change_permission v req obj = ok (vs_has_change_permission vs req obj).
Proof. intros Hvs. unfold has_change_permission. by rewrite Hvs. Qed.

Lemma has_delete_permission_viewset (vs : Viewset) :
  viewset v = Some vs ->
  has_delete_permission v req obj = ok (vs_has_delete_permission vs req obj).
Proof. intros Hvs. unfold has_delete_permission. by rewrite Hvs. Qed.

(** Without one, each check is a lookup of the user's permissions under
    the permission string of its action. *)
Lemma has_change_permission_default (m : Model) :
  viewset v = None -> model v = Some m ->
  has_change_permission v req obj =
    ok (has_perm (user req) (perm_string "change" (_meta m)) obj).
Proof.
  intros Hvs Hm. unfold has_change_permission, model_meta.
  by rewrite Hvs, Hm.
Qed.

Lemma has_delete_permission_default (m : Model) :
  viewset v = None -> model v = Some m ->
  has_delete_permission v req obj =
    ok (has_perm (user req) (perm_string "delete" (_meta m)) obj).
Proof.
  intros Hvs Hm. unfold has_delete_permission, model_meta.
  by rewrite Hvs, Hm.
Qed.

Lemma has_view_permission_default (m : Model) :
  viewset v = None -> model v = Some m ->
  has_view_permission v req obj =
    ok (has_perm (user req) (perm_string "view" (_meta m)) obj
        || has_perm (user req) (perm_string "change" (_meta m)) obj).
Proof.
  intros Hvs Hm. unfold has_view_permission.
  rewrite (has_change_permission_default m Hvs Hm).
  unfold model_meta. rewrite Hvs, Hm. simpl.
  fold (perm_string "view" (_meta m)).
  by destruct (has_perm _ (perm_string "view" _) _).
Qed.

End Permissions.

(** C2, as stated, fails: under a viewset that grants change and refuses
    view, [has_change_permission] is true and [has_view_permission] is
    false. *)
Lemma has_view_permission_viewset_counterexample :
  let r := Sample.request_with [] in
  let v := with_viewset change_only_viewset (Sample.lamp_view r) in
  has_change_permission v r (Some Sample.lamp) = ok true /\
  has_view_permission v r (Some Sample.lamp) = ok false.
Proof. split; reflexivity. Qed.

(** C2, amended.  When no viewset is configured, [has_view_permission] is
    true whenever [has_change_permission] is, whether or not the view
    permission itself is granted. *)
Theorem has_view_permission_follows_change (v : View) (req : Request)
    (obj : option Instance) :
  viewset v = None ->
  has_change_permission v req obj = ok true ->
  has_view_permission v req obj = ok true.
Proof.
  intros Hvs Hchange. unfold has_view_permission. rewrite Hvs.
  destruct (model_meta v) as [e|opts] eqn:Hmeta; simpl.
  - unfold has_change_permission in Hchange.
    rewrite Hvs, Hmeta in Hchange. discriminate Hchange.
  - destruct (has_perm (user req)
                (app_label opts +:+ "." +:+ get_permission_codename "view" opts)
                obj); [reflexivity | exact Hchange].
Qed.

Lemma has_view_permission_follows_change_witness :
  let r := Sample.request_with ["shop.change_product"] in
  let v := Sample.lamp_view r in
  has_perm (user r) "shop.view_product" (Some Sample.lamp) = false /\
  has_view_permission v r (Some Sample.lamp) = ok true.
Proof.
  split; [reflexivity|].
  apply (has_view_permission_follows_change
           (Sample.lamp_view (Sample.request_with ["shop.change_product"]))
           (Sample.request_with ["shop.change_product"]) (Some Sample.lamp));
    reflexivity.
Defined.

(** C8.  With no viewset, and a model [m] whose metadata give the
    application label and the model name, each check asks the permissions of
    the user of the request under ["<app_label>.<action>_<model_name>"]:
    the change check with action [change], the delete check with action
    [delete], and the view check with action [view], followed, when that
    one is refused, by the lookup of the change check. *)
Theorem default_permission_strings (v : View) (req : Request)
    (obj : option Instance) (m : Model) :
  viewset v = None ->
  model v = Some m ->
  let queried action :=
    has_perm (user req)
      (app_label (_meta m) +:+ "." +:+ action +:+ "_" +:+ model_name (_meta m))
      obj in
  has_view_permission v req obj = ok (queried "view" || queried "change") /\
  has_change_permission v req obj = ok (queried "change") /\
  has_delete_permission v req obj = ok (queried "delete").
Proof.
  intros Hvs Hm queried. subst queried. simpl.
  rewrite (has_view_permission_default v req obj m Hvs Hm).
  rewrite (has_change_permission_default v req obj m Hvs Hm).
  rewrite (has_delete_permission_default v req obj m Hvs Hm).
  repeat split; reflexivity.
Qed.

Lemma default_permission_strings_witness :
  let r := Sample.request_with ["shop.delete_product"] in
  let v := Sample.lamp_view r in
  let queried perm := has_perm (user r) perm (Some Sample.lamp) in
  has_view_permission v r (Some Sample.lamp)
    = ok (queried "shop.view_product" || queried "shop.change_product") /\
  has_change_permission v r (Some Sample.lamp)
    = ok (queried "shop.change_product") /\
  has_delete_permission v r (Some Sample.lamp)
    = ok (queried "shop.delete_product").
Proof.
  apply (default_permission_strings
           (Sample.lamp_view (Sample.request_with ["shop.delete_product"]))
           (Sample.request_with ["shop.delete_product"]) (Some Sample.lamp)
           Sample.product); reflexivity.
Defined.

(** C9, as stated, fails: the viewset is handed the request, and through its
    user it can ask the permission backend.  Two requests of the same user
    that differ in the granted permissions only then get different answers
    from a view with such a viewset. *)
Lemma viewset_backend_counterexample :
  let granted := Sample.request_with ["shop.view_product"] in
  let refused := Sample.request_with [] in
  let v := with_viewset (backend_viewset (_meta Sample.product))
                        (Sample.lamp_view refused) in
  username (user granted) = username (user refused) /\
  has_view_permission v granted (Some Sample.lamp) = ok true /\
  has_view_permission v refused (Some Sample.lamp) = ok false.
Proof. repeat split; reflexivity. Qed.

(** C9, amended.  With a viewset, each check returns exactly the viewset's
    answer for the same request and object, and the view looks nothing up
    itself; so two requests get the same answer from the view whenever they
    get the same answer from the viewset, whatever their users are
    granted. *)
Theorem viewset_decides_permissions (v : View) (vs : Viewset)
    (req1 req2 : Request) (obj : option Instance) :
  viewset v = Some vs ->
  (has_view_permission v req1 obj = ok (vs_has_view_permission vs req1 obj) /\
   has_change_permission v req1 obj = ok (vs_has_change_permission vs req1 obj) /\
   has_delete_permission v req1 obj = ok (vs_has_delete_permission vs req1 obj)) /\
  (vs_has_view_permission vs req1 obj = vs_has_view_permission vs req2 obj ->
   has_view_permission v req1 obj = has_view_permission v req2 obj) /\
  (vs_has_change_permission vs req1 obj = vs_has_change_permission vs req2 obj ->
   has_change_permission v req1 obj = has_change_permission v req2 obj) /\
  (vs_has_delete_permission vs req1 obj = vs_has_delete_permission vs req2 obj ->
   has_delete_permission v req1 obj = has_delete_permission v req2 obj).
Proof.
  intros Hvs.
  rewrite !(has_view_permission_viewset v _ obj vs Hvs).
  rewrite !(has_change_permission_viewset v _ obj vs Hvs).
  rewrite !(has_delete_permission_viewset v _ obj vs Hvs).
  repeat split; intros ->; reflexivity.
Qed.

Lemma viewset_decides_permissions_witness :
  let granted := Sample.request_with ["shop.view_product"] in
  let refused := Sample.request_with [] in
  let v := with_viewset change_only_viewset (Sample.lamp_view refused) in
  has_view_permission v granted (Some Sample.lamp) = ok false /\
  has_change_permission v granted (Some Sample.lamp) = ok true /\
  has_delete_permission v granted (Some Sample.lamp) = ok false.
Proof.
  apply (viewset_decides_permissions
           (with_viewset change_only_viewset
              (Sample.lamp_view (Sample.request_with [])))
           change_only_viewset
           (Sample.request_with ["shop.view_product"])
           (Sample.request_with []) (Some Sample.lamp)).
  reflexivity.
Defined.

(** ** [get_object] *)

(** C3.  When the object is retrieved, [get_object] raises
    [PermissionDenied], and so returns no object, if the view check is
    false, and returns the retrieved object if the view check is true. *)
Theorem get_object_checks_view_permission `{Framework} (v : View)
    (obj : Instance) :
  super_get_object v = inr obj ->
  (has_view_permission v (request v) (Some obj) = ok false ->
   get_object v = raise PermissionDenied /\ forall o, get_object v <> ok o) /\
  (has_view_permission v (request v) (Some obj) = ok true ->
   get_object v = ok obj).
Proof.
  intros Hget. unfold get_object. rewrite Hget. simpl.
  split; intros ->; simpl; [split|]; try reflexivity.
  intros o Ho. discriminate Ho.
Qed.

Lemma get_object_checks_view_permission_witness :
  @get_object Sample.django (Sample.lamp_view (Sample.request_with []))
    = raise PermissionDenied /\
  @get_object Sample.django
     (Sample.lamp_view (Sample.request_with ["shop.view_product"]))
    = ok Sample.lamp.
Proof.
  split.
  - apply (@get_object_checks_view_permission Sample.django
             (Sample.lamp_view (Sample.request_with [])) Sample.lamp);
      reflexivity.
  - apply (@get_object_checks_view_permission Sample.django
             (Sample.lamp_view (Sample.request_with ["shop.view_product"]))
             Sample.lamp); reflexivity.
Defined.

(** ** [get_form_class] *)

Section FormClass.

Context `{Framework}.
Variable v : View.

(** [form_class v] is there exactly when the attribute is true. *)
Lemma truthy_form_class :
  truthy (form_class_attr v) = bool_decide (is_Some (form_class v)).
Proof.
  unfold form_class. destruct (form_class_attr v); reflexivity.
Qed.

(** Resolving the model raises nothing of its own. *)
Lemma resolve_model_error (e : exn) :
  resolve_model v = raise e -> exists msg, e = FrameworkError msg.
Proof.
  unfold resolve_model.
  destruct (model v); [discriminate|].
  destruct (object v); [discriminate|].
  destruct (get_queryset v) as [msg|qs]; simpl; [|discriminate].
  intros [= <-]. by exists msg.
Qed.

Lemma get_form_class_both (fs : FieldSpec) (fc : FormClass) :
  fields v = Some fs -> form_class v = Some fc ->
  get_form_class v = raise (ImproperlyConfigured both_msg).
Proof.
  intros Hfs Hfc. unfold get_form_class.
  by rewrite truthy_form_class, Hfs, Hfc.
Qed.

Lemma get_form_class_form_only (fc : FormClass) :
  fields v = None -> form_class v = Some fc -> get_form_class v = ok fc.
Proof.
  intros Hfs Hfc. unfold get_form_class.
  by rewrite truthy_form_class, Hfs, Hfc.
Qed.

Lemma get_form_class_fields_only (fs : FieldSpec) :
  fields v = Some fs -> form_class v = None ->
  get_form_class v =
    let* m := resolve_model v in call (modelform_factory m fs).
Proof.
  intros Hfs Hfc. unfold get_form_class.
  by rewrite truthy_form_class, Hfs, Hfc.
Qed.

Lemma get_form_class_neither :
  fields v = None -> form_class v = None ->
  get_form_class v =
    let* m := resolve_model v in
    raise (ImproperlyConfigured (missing_fields_msg (class_name v))).
Proof.
  intros Hfs Hfc. unfold get_form_class.
  by rewrite truthy_form_class, Hfs, Hfc.
Qed.

(** With a field list and no form class, every failure comes from the
    framework. *)
Lemma get_form_class_fields_only_error (fs : FieldSpec) (e : exn) :
  fields v = Some fs -> form_class v = None ->
  get_form_class v = raise e -> exists msg, e = FrameworkError msg.
Proof.
  intros Hfs Hfc. rewrite (get_form_class_fields_only fs Hfs Hfc).
  destruct (resolve_model v) as [e'|m] eqn:Hm; simpl.
  - intros [= <-]. by apply resolve_model_error.
  - destruct (modelform_factory m fs) as [msg|fc]; simpl; [|discriminate].
    intros [= <-]. by exists msg.
Qed.

End FormClass.

Lemma both_msg_not_missing_fields_msg (cls : string) :
  both_msg <> missing_fields_msg cls.
Proof. unfold both_msg, missing_fields_msg. simpl. discriminate. Qed.

(** C4, as stated, fails: a view constructed with no option at all has
    [fields] set, by the constructor, and [form_class] unset, and
    [get_form_class] fails on it, with the failure of the queryset lookup
    that the missing model leads to. *)
Lemma get_form_class_counterexample :
  let v := __init__ (Sample.blank (Sample.request_with [])) in
  fields v = Some (FieldsStr "__all__") /\
  form_class v = None /\
  @get_form_class Sample.django v =
    raise (FrameworkError "ImproperlyConfigured: the view is missing a QuerySet").
Proof. repeat split; reflexivity. Qed.

(** C4, amended.  [get_form_class] raises [ImproperlyConfigured] when both
    [fields] and [form_class] are set.  When neither is set it returns no
    form class: it raises [ImproperlyConfigured] as soon as the model is
    resolved, and passes on the failure of the queryset lookup if it is not.
    When only [form_class] is set it returns it.  When only
    [fields] is set it returns the form class the form factory builds for
    the resolved model, and the only failures are those of the queryset
    lookup and of the form factory. *)
Theorem get_form_class_cases `{Framework} (v : View) :
  (forall fs fc, fields v = Some fs -> form_class v = Some fc ->
     get_form_class v = raise (ImproperlyConfigured both_msg)) /\
  (fields v = None -> form_class v = None ->
     (forall fc, get_form_class v <> ok fc) /\
     (forall m, resolve_model v = ok m ->
        get_form_class v =
          raise (ImproperlyConfigured (missing_fields_msg (class_name v)))) /\
     (forall e, resolve_model v = raise e -> get_form_class v = raise e)) /\
  (forall fc, fields v = None -> form_class v = Some fc ->
     get_form_class v = ok fc) /\
  (forall fs, fields v = Some fs -> form_class v = None ->
     (forall m fc, resolve_model v = ok m -> modelform_factory m fs = inr fc ->
        get_form_class v = ok fc) /\
     (forall e, get_form_class v = raise e -> exists msg, e = FrameworkError msg)).
Proof.
  split; [exact (get_form_class_both v)|].
  split; [|split; [exact (get_form_class_form_only v)|]].
  - intros Hfs Hfc. rewrite (get_form_class_neither v Hfs Hfc).
    split; [|split].
    + intros fc. destruct (resolve_model v); discriminate.
    + intros m ->. reflexivity.
    + intros e ->. reflexivity.
  - intros fs Hfs Hfc. split.
    + intros m fc Hm Hfactory.
      rewrite (get_form_class_fields_only v fs Hfs Hfc), Hm. simpl.
      by rewrite Hfactory.
    + intros e. by apply (get_form_class_fields_only_error v fs).
Qed.

(** The four configurations, on the sample project. *)
Lemma get_form_class_cases_witness :
  let r := Sample.request_with [] in
  let configured fs fc :=
    {| class_name := "ProductDetail"; viewset := None; form_class_attr := fc;
       layout := None; fields := fs; model := Some Sample.product;
       object := None; request := r; template_name := None;
       template_name_suffix := "_detail" |} in
  @get_form_class Sample.django
     (configured (Some (FieldsList ["name"]))
                 (TrueFormClass (CustomForm "ProductForm")))
    = raise (ImproperlyConfigured both_msg) /\
  @get_form_class Sample.django (configured None NoFormClass)
    = raise (ImproperlyConfigured (missing_fields_msg "ProductDetail")) /\
  @get_form_class Sample.django
     (configured None (TrueFormClass (CustomForm "ProductForm")))
    = ok (CustomForm "ProductForm") /\
  @get_form_class Sample.django
     (configured (Some (FieldsList ["name"])) NoFormClass)
    = ok (ModelForm Sample.product (FieldsList ["name"])).
Proof.
  intros r configured.
  split; [|split; [|split]].
  - destruct (@get_form_class_cases Sample.django
                (configured (Some (FieldsList ["name"]))
                            (TrueFormClass (CustomForm "ProductForm"))))
      as (Hboth & _).
    by apply (Hboth (FieldsList ["name"]) (CustomForm "ProductForm")).
  - destruct (@get_form_class_cases Sample.django
                (configured None NoFormClass))
      as (_ & Hneither & _).
    destruct (Hneither eq_refl eq_refl) as (_ & Hmissing & _).
    by apply (Hmissing Sample.product).
  - destruct (@get_form_class_cases Sample.django
                (configured None (TrueFormClass (CustomForm "ProductForm"))))
      as (_ & _ & Hform & _).
    by apply Hform.
  - destruct (@get_form_class_cases Sample.django
                (configured (Some (FieldsList ["name"])) NoFormClass))
      as (_ & _ & _ & Hfields).
    destruct (Hfields (FieldsList ["name"]) eq_refl eq_refl) as [Hbuilt _].
    by apply (Hbuilt Sample.product).
Defined.

(** ** [__init__] and [get_form_class] *)

(** C10, as stated, fails: a [form_class] that is not [None] and yet false
    keeps the constructor from setting [fields], and is passed over by
    [get_form_class], which then raises the [ImproperlyConfigured] of a
    missing [fields] attribute on the view as constructed. *)
Lemma init_falsy_form_class_counterexample :
  let v := __init__ (falsy_form_view (Sample.request_with [])) in
  form_class_attr v <> NoFormClass /\
  fields v = None /\
  @get_form_class Sample.django v =
    raise (ImproperlyConfigured (missing_fields_msg "DetailModelView")).
Proof.
  intros v. split; [|split; reflexivity].
  subst v. simpl. discriminate.
Qed.

(** C10, amended.  [__init__] sets [fields] to ['__all__'] when it finds
    both [fields] and [form_class] to be [None]; after it, [fields] or
    [form_class] is not [None]; and on the constructed view
    [get_form_class] never raises the [ImproperlyConfigured] of a missing
    [fields] attribute if [form_class] is [None] or a form class: it
    raises it only for a [form_class] that is not [None] and false, with
    [fields] unset. *)
Theorem init_rules_out_missing_fields `{Framework} (v : View) :
  (form_class_attr v = NoFormClass -> fields v = None ->
     fields (__init__ v) = Some (FieldsStr "__all__")) /\
  (is_Some (fields (__init__ v)) \/ form_class_attr (__init__ v) <> NoFormClass) /\
  (form_class_attr v <> FalsyFormClass ->
   forall cls,
     get_form_class (__init__ v)
       <> raise (ImproperlyConfigured (missing_fields_msg cls))) /\
  (forall cls,
     get_form_class (__init__ v)
       = raise (ImproperlyConfigured (missing_fields_msg cls)) ->
     form_class_attr v = FalsyFormClass /\ fields v = None).
Proof.
  assert (Hfields_only : forall w fs cls,
            fields w = Some fs -> form_class w = None ->
            get_form_class w
              <> raise (ImproperlyConfigured (missing_fields_msg cls))).
  { intros w fs cls Hfs Hfc Hraise.
    destruct (get_form_class_fields_only_error w fs _ Hfs Hfc Hraise)
      as [msg Hmsg].
    discriminate Hmsg. }
  assert (Hreach : forall cls,
            get_form_class (__init__ v)
              = raise (ImproperlyConfigured (missing_fields_msg cls)) ->
            form_class_attr v = FalsyFormClass /\ fields v = None).
  { intros cls Hraise. unfold __init__ in Hraise.
    destruct (form_class_attr v) as [| |fc] eqn:Hattr.
    - exfalso. destruct (fields v) as [fs|] eqn:Hfs.
      + apply (Hfields_only v fs cls Hfs); [|exact Hraise].
        unfold form_class. by rewrite Hattr.
      + eapply Hfields_only; [| |exact Hraise]; reflexivity.
    - split; [reflexivity|].
      destruct (fields v) as [fs|] eqn:Hfs; [|reflexivity].
      exfalso. apply (Hfields_only v fs cls Hfs); [|exact Hraise].
      unfold form_class. by rewrite Hattr.
    - exfalso.
      assert (Hfc : form_class v = Some fc)
        by (unfold form_class; by rewrite Hattr).
      destruct (fields v) as [fs|] eqn:Hfs.
      + rewrite (get_form_class_both v fs fc Hfs Hfc) in Hraise.
        apply (both_msg_not_missing_fields_msg cls).
        unfold raise in Hraise. congruence.
      + rewrite (get_form_class_form_only v fc Hfs Hfc) in Hraise.
        discriminate Hraise. }
  split; [|split; [|split]].
  - intros Hattr Hfs. unfold __init__. by rewrite Hattr, Hfs.
  - unfold __init__.
    destruct (form_class_attr v) as [| |fc] eqn:Hattr.
    + destruct (fields v) as [fs|] eqn:Hfs; left; simpl; [rewrite Hfs|]; eauto.
    + right. rewrite Hattr. discriminate.
    + right. rewrite Hattr. discriminate.
  - intros Hattr cls Hraise. by destruct (Hreach cls Hraise) as [Hfalsy _].
  - exact Hreach.
Qed.

Lemma init_rules_out_missing_fields_witness :
  let r := Sample.request_with [] in
  fields (Sample.lamp_view r) = Some (FieldsStr "__all__") /\
  @get_form_class Sample.django (Sample.lamp_view r)
    <> raise (ImproperlyConfigured (missing_fields_msg "DetailModelView")).
Proof.
  intros r. split; [reflexivity|].
  destruct (@init_rules_out_missing_fields Sample.django
              {| class_name := "DetailModelView";
                 viewset := None; form_class_attr := NoFormClass;
                 layout := None; fields := None;
                 model := Some Sample.product; object := Some Sample.lamp;
                 request := r;
                 template_name := None; template_name_suffix := "_detail" |})
    as (_ & _ & Hnever & _).
  apply Hnever. discriminate.
Defined.

(** ** [get_template_names] *)

(** C7.  With a template name configured, [get_template_names] returns the
    list of that one name; with none, and a model to read the application
    label and the model name from, it returns the template of the model
    followed by the generic template. *)
Theorem get_template_names_cases (v : View) :
  (forall name, template_name v = Some name ->
     get_template_names v = ok [name]) /\
  (forall m, template_name v = None -> model v = Some m ->
     get_template_names v =
       ok [ app_label (_meta m) +:+ "/" +:+ model_name (_meta m) +:+
              template_name_suffix v +:+ ".html";
            "material/frontend/views/detail.html" ]).
Proof.
  unfold get_template_names, model_meta. split.
  - by intros name ->.
  - by intros m -> ->.
Qed.

Lemma get_template_names_cases_witness :
  let r := Sample.request_with [] in
  let named :=
    {| class_name := "ProductDetail"; viewset := None;
       form_class_attr := NoFormClass;
       layout := None; fields := None; model := Some Sample.product;
       object := None; request := r; template_name := Some "shop/lamp.html";
       template_name_suffix := "_detail" |} in
  get_template_names named = ok ["shop/lamp.html"] /\
  get_template_names (Sample.lamp_view r) =
    ok ["shop/product_detail.html"; "material/frontend/views/detail.html"].
Proof.
  intros r named. split.
  - destruct (get_template_names_cases named) as [Hnamed _].
    by apply Hnamed.
  - destruct (get_template_names_cases (Sample.lamp_view r)) as [_ Hdefault].
    by apply (Hdefault Sample.product).
Defined.

(** ** [get_context_data] *)

(** The keys of the two links in a context that is returned. *)
Lemma get_context_data_keys `{Framework} (v : View)
    (kwargs ctx : gmap string ctx_value) :
  kwargs !! "change_url" = None ->
  kwargs !! "delete_url" = None ->
  (forall kw, super_get_context_data v kw = inr ctx ->
     (is_Some (ctx !! "change_url") <-> is_Some (kw !! "change_url")) /\
     (is_Some (ctx !! "delete_url") <-> is_Some (kw !! "delete_url"))) ->
  get_context_data v kwargs = ok ctx ->
  (is_Some (ctx !! "change_url") <->
     has_change_permission v (request v) (object v) = ok true) /\
  (is_Some (ctx !! "delete_url") <->
     has_delete_permission v (request v) (object v) = ok true).
Proof.
  intros Hchange Hdelete Hsuper Hctx. unfold get_context_data in Hctx.
  bind_inv Hctx. bind_inv Hctx. bind_inv Hctx. bind_inv Hctx. bind_inv Hctx.
  bind_inv Hctx. bind_inv Hctx.
  unfold call in Hctx.
  destruct (super_get_context_data v _) as [msg|ctx'] eqn:Esuper;
    [discriminate Hctx|].
  injection Hctx as ->.
  destruct (Hsuper _ Esuper) as [Hc Hd]. rewrite Hc, Hd. clear Hsuper Hc Hd Esuper.
  rewrite !lookup_insert_ne by done.
  assert (Hg : (is_Some (g !! "change_url") <-> b = true) /\
               g !! "delete_url" = None).
  { destruct b.
    - bind_inv E1. bind_inv E1. injection E1 as <-.
      rewrite lookup_insert_eq, !lookup_insert_ne by done.
      split; [split; eauto | done].
    - injection E1 as <-. rewrite !lookup_insert_ne by done.
      rewrite Hchange. split; [split; [by intros [??] | done] | done]. }
  destruct Hg as [Hg_change Hg_delete].
  assert (Hg0 : g0 !! "change_url" = g !! "change_url" /\
                (is_Some (g0 !! "delete_url") <-> b0 = true)).
  { destruct b0.
    - bind_inv E3. bind_inv E3. injection E3 as <-.
      rewrite lookup_insert_eq, lookup_insert_ne by done.
      split; [done | split; eauto].
    - injection E3 as <-. rewrite Hg_delete.
      split; [done | split; [by intros [??] | done]]. }
  destruct Hg0 as [-> Hg0_delete].
  rewrite Hg_change, Hg0_delete. unfold ok.
  split; split; congruence.
Qed.

(** With a model, a current object, a form class and a form, and the URLs
    of the links that are allowed, [get_context_data] comes to the call of
    the base method, on the keyword arguments extended with the four
    entries. *)
Lemma get_context_data_returns `{Framework} (v : View)
    (kwargs : gmap string ctx_value) (m : Model) (obj : Instance)
    (chg del : bool) (url_c url_d : string) (fc : FormClass) (form : Form) :
  model v = Some m ->
  object v = Some obj ->
  has_change_permission v (request v) (Some obj) = ok chg ->
  has_delete_permission v (request v) (Some obj) = ok del ->
  (chg = true ->
   reverse (app_label (_meta m) +:+ ":" +:+ model_name (_meta m) +:+ "_change")
           [pk obj] = inr url_c) ->
  (del = true ->
   reverse (app_label (_meta m) +:+ ":" +:+ model_name (_meta m) +:+ "_delete")
           [pk obj] = inr url_d) ->
  get_form_class v = ok fc ->
  instantiate fc (Some obj) = inr form ->
  get_context_data v kwargs =
    call (super_get_context_data v
            (<["form" := CForm form]>
               (put_link del "delete_url" url_d
                  (put_link chg "change_url" url_c
                     (<["object_data" := CObjectData (get_object_data v)]>
                        kwargs))))).
Proof.
  intros Hm Hobj Hchg Hdel Hurl_c Hurl_d Hfc Hform.
  unfold get_context_data, model_meta, object_pk.
  rewrite Hm, Hobj, Hchg. simpl.
  assert (Hstep_c :
    (if chg then
       let* url :=
         call (reverse (app_label (_meta m) +:+ ":" +:+
                        model_name (_meta m) +:+ "_change") [pk obj]) in
       ok (<["change_url" := CUrl url]>
             (<["object_data" := CObjectData (get_object_data v)]> kwargs))
     else ok (<["object_data" := CObjectData (get_object_data v)]> kwargs))
    = ok (put_link chg "change_url" url_c
            (<["object_data" := CObjectData (get_object_data v)]> kwargs))).
  { destruct chg; [|reflexivity]. by rewrite (Hurl_c eq_refl). }
  rewrite Hstep_c. simpl. rewrite Hdel. simpl.
  set (kw1 := put_link chg "change_url" url_c _).
  assert (Hstep_d :
    (if del then
       let* url :=
         call (reverse (app_label (_meta m) +:+ ":" +:+
                        model_name (_meta m) +:+ "_delete") [pk obj]) in
       ok (<["delete_url" := CUrl url]> kw1)
     else ok kw1)
    = ok (put_link del "delete_url" url_d kw1)).
  { destruct del; [|reflexivity]. by rewrite (Hurl_d eq_refl). }
  rewrite Hstep_d. simpl. rewrite Hfc. simpl. rewrite Hform. reflexivity.
Qed.

(** The checks return on a view that has a model. *)
Lemma has_change_permission_returns (v : View) (req : Request)
    (obj : option Instance) :
  is_Some (model v) -> exists b, has_change_permission v req obj = ok b.
Proof.
  intros [m Hm]. unfold has_change_permission, model_meta.
  destruct (viewset v); [eauto|]. rewrite Hm. simpl. eauto.
Qed.

Lemma has_delete_permission_returns (v : View) (req : Request)
    (obj : option Instance) :
  is_Some (model v) -> exists b, has_delete_permission v req obj = ok b.
Proof.
  intros [m Hm]. unfold has_delete_permission, model_meta.
  destruct (viewset v); [eauto|]. rewrite Hm. simpl. eauto.
Qed.

(** C5.  Called with keyword arguments that name neither [change_url] nor
    [delete_url], as the framework and a call without arguments do:
    a context that [get_context_data] returns, over a base
    [get_context_data] that neither adds nor drops these two keys, has the
    key [change_url] exactly when [has_change_permission] is true for the
    current object, and the key [delete_url] exactly when
    [has_delete_permission] is; and [get_context_data] does return a
    context, for a view with a model and a current object, once
    [get_form_class], the form, the two URLs and the base method are
    there. *)
Theorem get_context_data_urls `{Framework} (v : View)
    (kwargs : gmap string ctx_value) :
  kwargs !! "change_url" = None ->
  kwargs !! "delete_url" = None ->
  (forall ctx,
     (forall kw, super_get_context_data v kw = inr ctx ->
        (is_Some (ctx !! "change_url") <-> is_Some (kw !! "change_url")) /\
        (is_Some (ctx !! "delete_url") <-> is_Some (kw !! "delete_url"))) ->
     get_context_data v kwargs = ok ctx ->
     (is_Some (ctx !! "change_url") <->
        has_change_permission v (request v) (object v) = ok true) /\
     (is_Some (ctx !! "delete_url") <->
        has_delete_permission v (request v) (object v) = ok true)) /\
  (forall m obj fc form,
     model v = Some m ->
     object v = Some obj ->
     get_form_class v = ok fc ->
     instantiate fc (Some obj) = inr form ->
     (exists url,
        reverse (app_label (_meta m) +:+ ":" +:+ model_name (_meta m) +:+
                 "_change") [pk obj] = inr url) ->
     (exists url,
        reverse (app_label (_meta m) +:+ ":" +:+ model_name (_meta m) +:+
                 "_delete") [pk obj] = inr url) ->
     (forall kw, exists ctx, super_get_context_data v kw = inr ctx) ->
     exists ctx, get_context_data v kwargs = ok ctx).
Proof.
  intros Hchange Hdelete. split.
  - intros ctx Hsuper Hctx.
    by apply (get_context_data_keys v kwargs ctx).
  - intros m obj fc form Hm Hobj Hfc Hform [url_c Hurl_c] [url_d Hurl_d] Hbase.
    destruct (has_change_permission_returns v (request v) (Some obj))
      as [chg Hchg]; [eauto|].
    destruct (has_delete_permission_returns v (request v) (Some obj))
      as [del Hdel]; [eauto|].
    rewrite (get_context_data_returns v kwargs m obj chg del url_c url_d fc form)
      by auto.
    destruct (Hbase (<["form" := CForm form]>
                       (put_link del "delete_url" url_d
                          (put_link chg "change_url" url_c
                             (<["object_data" :=
                                  CObjectData (get_object_data v)]> kwargs)))))
      as [ctx Hctx].
    exists ctx. by rewrite Hctx.
Qed.

(** The base [get_context_data] of the sample framework keeps the keys it
    is given and adds [object] and [view] only. *)
Lemma django_context_keys (v : View) (kw ctx : gmap string ctx_value)
    (k : string) :
  @super_get_context_data Sample.django v kw = inr ctx ->
  k <> "object" -> k <> "view" ->
  is_Some (ctx !! k) <-> is_Some (kw !! k).
Proof.
  simpl. intros Hctx Hobject Hview.
  set (base := match object v with
               | Some obj => {[ "object" := CObject obj ]}
               | None => ∅
               end : gmap string ctx_value) in *.
  assert (Hbase : base !! k = None).
  { subst base. destruct (object v); [by rewrite lookup_singleton_ne | done]. }
  assert (Hunion : (kw ∪ base) !! k = kw !! k).
  { rewrite lookup_union, Hbase. by destruct (kw !! k). }
  destruct ((kw ∪ base) !! "view"); injection Hctx as <-.
  - by rewrite Hunion.
  - by rewrite lookup_insert_ne, Hunion.
Qed.

(** The base method of the sample framework returns. *)
Lemma django_context_returns (v : View) (kw : gmap string ctx_value) :
  exists ctx, @super_get_context_data Sample.django v kw = inr ctx.
Proof. simpl. destruct (_ !! "view"); eauto. Qed.

(** For a user with every permission both links are there, for a user with
    none neither is, and with the change permission alone the change link
    alone. *)
Lemma get_context_data_urls_witness :
  (exists ctx,
     @get_context_data Sample.django (Sample.lamp_view superuser_request) ∅
       = ok ctx /\
     is_Some (ctx !! "change_url") /\ is_Some (ctx !! "delete_url")) /\
  (exists ctx,
     @get_context_data Sample.django
        (Sample.lamp_view (Sample.request_with [])) ∅ = ok ctx /\
     ctx !! "change_url" = None /\ ctx !! "delete_url" = None) /\
  (exists ctx,
     @get_context_data Sample.django
        (Sample.lamp_view (Sample.request_with ["shop.delete_product"])) ∅
       = ok ctx /\
     ctx !! "change_url" = None /\ is_Some (ctx !! "delete_url")).
Proof.
  assert (Hrun : forall r,
            exists ctx,
              @get_context_data Sample.django (Sample.lamp_view r) ∅ = ok ctx /\
              (is_Some (ctx !! "change_url") <->
                 has_change_permission (Sample.lamp_view r) r (Some Sample.lamp)
                   = ok true) /\
              (is_Some (ctx !! "delete_url") <->
                 has_delete_permission (Sample.lamp_view r) r (Some Sample.lamp)
                   = ok true)).
  { intros r.
    destruct (@get_context_data_urls Sample.django (Sample.lamp_view r) ∅
                (lookup_empty _) (lookup_empty _)) as [Hkeys Hreturns].
    destruct (Hreturns Sample.product Sample.lamp
                (ModelForm Sample.product (FieldsStr "__all__"))
                {| form_cls := ModelForm Sample.product (FieldsStr "__all__");
                   form_instance := Some Sample.lamp |}
                eq_refl eq_refl eq_refl eq_refl)
      as [ctx Hctx]; [simpl; eauto | simpl; eauto | |].
    - intros kw. apply django_context_returns.
    - exists ctx. split; [exact Hctx|].
      apply (Hkeys ctx); [|exact Hctx].
      intros kw Hsuper.
      split; by apply (django_context_keys (Sample.lamp_view r) kw ctx). }
  split; [|split].
  - destruct (Hrun superuser_request) as (ctx & Hctx & Hc & Hd).
    exists ctx. split; [exact Hctx|]. split; [by apply Hc | by apply Hd].
  - destruct (Hrun (Sample.request_with [])) as (ctx & Hctx & Hc & Hd).
    exists ctx. split; [exact Hctx|].
    split; apply eq_None_not_Some; intros Hsome;
      [apply Hc in Hsome | apply Hd in Hsome]; discriminate Hsome.
  - destruct (Hrun (Sample.request_with ["shop.delete_product"]))
      as (ctx & Hctx & Hc & Hd).
    exists ctx. split; [exact Hctx|]. split; [|by apply Hd].
    apply eq_None_not_Some. intros Hsome. apply Hc in Hsome.
    discriminate Hsome.
Defined.

Example lamp_context_keys :
  let r := Sample.request_with ["shop.change_product"] in
  match @get_context_data Sample.django (Sample.lamp_view r) ∅ with
  | inr ctx =>
      ctx !! "change_url" = Some (CUrl "/shop:product_change/") /\
      ctx !! "delete_url" = None /\
      is_Some (ctx !! "form") /\ is_Some (ctx !! "object_data")
  | inl _ => False
  end.
Proof. vm_compute. repeat split; eauto. Qed.

(** * Further properties *)

(** ** The generator of [get_object_data] *)

Lemma field_error_step (obj : Instance) (f : Field) (rest : list Field) :
  object_data_over obj (f :: rest) =
    match field_error obj f with
    | Some e => ([], Some e)
    | None =>
        match field_pair obj f with
        | Some p => (p :: (object_data_over obj rest).1,
                     (object_data_over obj rest).2)
        | None => object_data_over obj rest
        end
    end.
Proof.
  simpl. unfold field_error, field_pair, displayable, hasattr, getattr.
  destruct (is_auto_field f); simpl; [reflexivity|].
  destruct (auto_created f); simpl; [reflexivity|].
  destruct (attrs obj !! choice_display_attr f) as [x|] eqn:Hdisplay.
  - rewrite bool_decide_eq_true_2 by eauto. simpl.
    destruct x; reflexivity.
  - rewrite bool_decide_eq_false_2 by (intros [? ?]; discriminate). simpl.
    destruct (attrs obj !! get_attname f) as [y|]; simpl; [|reflexivity].
    destruct (object_data_over obj rest) as [pairs stop].
    destruct y; reflexivity.
Qed.

(** X1.  The generator comes to its end without an exception exactly
    when no field raises; and it has then yielded, in the order of the
    fields, the pair of each field that has one. *)
Theorem object_data_over_complete (obj : Instance) (fs : list Field) :
  ((object_data_over obj fs).2 = None <->
   Forall (fun f => field_error obj f = None) fs) /\
  (Forall (fun f => field_error obj f = None) fs ->
   (object_data_over obj fs).1 = omap (field_pair obj) fs).
Proof.
  induction fs as [|f rest [IHstop IHpairs]].
  - simpl. split; [split; [constructor | reflexivity] | reflexivity].
  - rewrite field_error_step.
    destruct (field_error obj f) as [e|] eqn:Herr.
    + split; [split; [discriminate|] |];
        intros Hall; inversion Hall as [|? ? Hf _]; subst;
        rewrite Herr in Hf; discriminate Hf.
    + assert (Hcons : Forall (fun g => field_error obj g = None) (f :: rest)
                      <-> Forall (fun g => field_error obj g = None) rest).
      { split; [by inversion 1 | by constructor]. }
      rewrite Hcons.
      destruct (field_pair obj f) as [p|] eqn:Hpair; simpl; rewrite Hpair;
        (split; [exact IHstop|]); intros Hall; by rewrite (IHpairs Hall).
Qed.

(** X2.  A generator that stops with an exception stops at the first field
    that cannot be read, with the exception of that field, after yielding
    the pairs of the fields before it; the fields after it are not looked
    at. *)
Theorem object_data_over_stops (obj : Instance) (fs : list Field) (e : exn) :
  (object_data_over obj fs).2 = Some e ->
  exists (before : list Field) f after,
    fs = (before ++ f :: after)%list /\
    Forall (fun g => field_error obj g = None) before /\
    field_error obj f = Some e /\
    (object_data_over obj fs).1 = omap (field_pair obj) before.
Proof.
  induction fs as [|f rest IH]; [discriminate|].
  rewrite field_error_step.
  destruct (field_error obj f) as [e'|] eqn:Herr; simpl.
  - intros [= ->]. exists [], f, rest. repeat split; [constructor | done].
  - assert (Hrest : (object_data_over obj rest).2 = Some e ->
              exists (before : list Field) g after,
                f :: rest = (before ++ g :: after)%list /\
                Forall (fun g => field_error obj g = None) before /\
                field_error obj g = Some e /\
                (option_list (field_pair obj f) ++
                   (object_data_over obj rest).1)%list
                  = omap (field_pair obj) before).
    { intros Hstop.
      destruct (IH Hstop) as (before & g & after & -> & Hall & Hg & Hpairs).
      exists (f :: before), g, after.
      repeat split; [by constructor | done |].
      rewrite Hpairs. simpl. by destruct (field_pair obj f). }
    destruct (field_pair obj f) as [p|]; simpl; exact Hrest.
Qed.

Lemma object_data_over_stops_witness :
  exists (before : list Field) f after,
    fields_of (_meta Sample.product) = (before ++ f :: after)%list /\
    Forall (fun g => field_error lamp_without_description g = None) before /\
    field_error lamp_without_description f
      = Some (AttributeError "description") /\
    (object_data_over lamp_without_description
       (fields_of (_meta Sample.product))).1
      = omap (field_pair lamp_without_description) before.
Proof.
  apply (object_data_over_stops lamp_without_description
           (fields_of (_meta Sample.product)) (AttributeError "description")).
  vm_compute. reflexivity.
Defined.

(** X3.  The generator yields no pair whose value is [None], and at most
    one pair for each field that is neither an automatic primary key nor
    auto-created. *)
Theorem object_data_over_bounds (obj : Instance) (fs : list Field) :
  (forall label, ~ In (label, VNone) (object_data_over obj fs).1) /\
  List.length (object_data_over obj fs).1
    <= List.length (List.filter displayable fs).
Proof.
  split.
  - intros label Hin.
    destruct (object_data_over_origin _ _ _ _ Hin) as (f & _ & _ & _ & _ & Hx & _).
    by apply Hx.
  - induction fs as [|f rest IH]; [done|].
    rewrite field_error_step.
    assert (Hskip : displayable f = false -> field_pair obj f = None).
    { unfold field_pair. by intros ->. }
    destruct (field_error obj f); simpl; [lia|].
    destruct (displayable f) eqn:Hdisp; simpl.
    + destruct (field_pair obj f); simpl; lia.
    + by rewrite (Hskip eq_refl).
Qed.

(** X4.  The generator over two lists of fields put end to end is the
    generator over the first, followed, if that one ends without an
    exception, by the generator over the second. *)
Theorem object_data_over_app (obj : Instance) (fs1 fs2 : list Field) :
  object_data_over obj (fs1 ++ fs2)%list =
    match (object_data_over obj fs1).2 with
    | Some e => object_data_over obj fs1
    | None =>
        ((object_data_over obj fs1).1 ++ (object_data_over obj fs2).1,
         (object_data_over obj fs2).2)%list
    end.
Proof.
  induction fs1 as [|f rest IH].
  - simpl. by destruct (object_data_over obj fs2).
  - change ((f :: rest) ++ fs2)%list with (f :: (rest ++ fs2))%list.
    rewrite !field_error_step.
    destruct (field_error obj f); [reflexivity|].
    rewrite IH.
    destruct (field_pair obj f); simpl;
      destruct (object_data_over obj rest) as [pairs [e|]]; reflexivity.
Qed.

(** ** [get_object] *)

(** X5.  An object that [get_object] returns is the one that was retrieved,
    and the view check is true for it. *)
Theorem get_object_sound `{Framework} (v : View) (o : Instance) :
  get_object v = ok o ->
  super_get_object v = inr o /\
  has_view_permission v (request v) (Some o) = ok true.
Proof.
  unfold get_object. intros Hget.
  destruct (super_get_object v) as [msg|obj]; simpl in Hget; [discriminate|].
  destruct (has_view_permission v (request v) (Some obj)) as [e|[|]] eqn:Hview;
    simpl in Hget; try discriminate.
  injection Hget as <-. by split.
Qed.

Lemma get_object_sound_witness :
  let v := Sample.lamp_view (Sample.request_with ["shop.change_product"]) in
  @super_get_object Sample.django v = inr Sample.lamp /\
  has_view_permission v (request v) (Some Sample.lamp) = ok true.
Proof.
  apply (@get_object_sound Sample.django
           (Sample.lamp_view (Sample.request_with ["shop.change_product"]))
           Sample.lamp).
  reflexivity.
Defined.


(** ** Permission checks and the model *)

(** X7.  With a viewset, no check reads the model: each gives the same
    result whatever the model of the view is, also with none.  With
    neither a viewset nor a model, each check raises the [AttributeError]
    of reading [_meta] on [None], for every request and object, before any
    permission of the user is asked. *)
Theorem permission_checks_and_model (v : View) (req : Request)
    (obj : option Instance) :
  (is_Some (viewset v) ->
   forall m,
     has_view_permission (with_model m v) req obj
       = has_view_permission v req obj /\
     has_change_permission (with_model m v) req obj
       = has_change_permission v req obj /\
     has_delete_permission (with_model m v) req obj
       = has_delete_permission v req obj) /\
  (viewset v = None -> model v = None ->
   has_view_permission v req obj = raise (AttributeError "_meta") /\
   has_change_permission v req obj = raise (AttributeError "_meta") /\
   has_delete_permission v req obj = raise (AttributeError "_meta")).
Proof.
  unfold has_view_permission, has_change_permission, has_delete_permission,
    model_meta.
  split.
  - intros [vs Hvs] m. simpl. rewrite Hvs. repeat split; reflexivity.
  - intros Hvs Hm. rewrite Hvs, Hm. repeat split; reflexivity.
Qed.

Lemma permission_checks_and_model_witness :
  let r := Sample.request_with [] in
  let v := with_viewset open_viewset (Sample.lamp_view r) in
  has_view_permission (with_model None v) r (Some Sample.lamp) = ok true /\
  has_view_permission (Sample.blank superuser_request) superuser_request
    (Some Sample.lamp) = raise (AttributeError "_meta").
Proof.
  intros r v. split.
  - destruct (permission_checks_and_model v r (Some Sample.lamp))
      as [Hviewset _].
    destruct (Hviewset (ex_intro _ open_viewset eq_refl) None) as (-> & _).
    reflexivity.
  - destruct (permission_checks_and_model (Sample.blank superuser_request)
                superuser_request (Some Sample.lamp)) as [_ Hnone].
    by destruct (Hnone eq_refl eq_refl) as (-> & _).
Defined.

(** ** [__init__] *)

(** X8.  Constructing twice changes nothing more than constructing once; a
    view on which [fields] or [form_class] is set is left as it is; and in
    every case the constructor touches [fields] alone, so that the three
    permission checks and the template names are those of the view as
    configured. *)
Theorem init_idempotent (v : View) :
  __init__ (__init__ v) = __init__ v /\
  (is_Some (fields v) \/ is_Some (form_class v) -> __init__ v = v) /\
  (forall req obj,
     has_view_permission (__init__ v) req obj = has_view_permission v req obj /\
     has_change_permission (__init__ v) req obj = has_change_permission v req obj /\
     has_delete_permission (__init__ v) req obj = has_delete_permission v req obj) /\
  get_template_names (__init__ v) = get_template_names v /\
  get_object_data (__init__ v) = get_object_data v.
Proof.
  unfold __init__, form_class.
  destruct (form_class_attr v) as [| |fc] eqn:Hattr;
    destruct (fields v) as [fs|] eqn:Hfs;
    simpl; rewrite ?Hattr, ?Hfs; simpl;
    (split; [reflexivity|split; [|repeat split; reflexivity]]);
    try (intros _; reflexivity).
  intros [[? Hsome]|[? Hsome]]; discriminate Hsome.
Qed.

(** X9.  On a constructed view [get_form_class] raises the failure of
    [fields] and [form_class] both being set exactly when the view was
    configured with both: the default of the constructor never brings the
    conflict about. *)
Theorem init_conflict `{Framework} (v : View) :
  get_form_class (__init__ v) = raise (ImproperlyConfigured both_msg) <->
  is_Some (fields v) /\ is_Some (form_class v).
Proof.
  assert (Hfw : forall w fs, fields w = Some fs -> form_class w = None ->
            get_form_class w <> raise (ImproperlyConfigured both_msg)).
  { intros w fs Hfs Hnone Hw.
    destruct (get_form_class_fields_only_error w fs _ Hfs Hnone Hw)
      as [msg Hmsg].
    discriminate Hmsg. }
  split.
  - intros Hraise. unfold __init__ in Hraise.
    destruct (form_class_attr v) as [| |fc] eqn:Hattr.
    + exfalso. destruct (fields v) as [fs|] eqn:Hfs.
      * apply (Hfw v fs Hfs); [|exact Hraise].
        unfold form_class. by rewrite Hattr.
      * eapply Hfw; [| |exact Hraise]; reflexivity.
    + exfalso.
      assert (Hfc : form_class v = None)
        by (unfold form_class; by rewrite Hattr).
      destruct (fields v) as [fs|] eqn:Hfs.
      * by apply (Hfw v fs Hfs Hfc).
      * rewrite (get_form_class_neither v Hfs Hfc) in Hraise.
        destruct (resolve_model v) as [e|m] eqn:Hm; simpl in Hraise.
        -- destruct (resolve_model_error v e Hm) as [msg ->].
           discriminate Hraise.
        -- apply (both_msg_not_missing_fields_msg (class_name v)).
           unfold raise in Hraise. congruence.
    + assert (Hfc : form_class v = Some fc)
        by (unfold form_class; by rewrite Hattr).
      destruct (fields v) as [fs|] eqn:Hfs; [by split; eauto|].
      rewrite (get_form_class_form_only v fc Hfs Hfc) in Hraise.
      discriminate Hraise.
  - intros [[fs Hfs] [fc Hfc]].
    assert (Hsame : __init__ v = v).
    { unfold __init__. rewrite Hfs. by destruct (form_class_attr v). }
    rewrite Hsame. by apply (get_form_class_both v fs fc).
Qed.

(** ** [get_form_class] and the framework *)

(** X10.  With [form_class] set, [get_form_class] makes no call into the
    framework: its result, the form class or the failure of a conflicting
    [fields], is the same under any two frameworks. *)
Theorem get_form_class_without_framework (F1 F2 : Framework) (v : View) :
  is_Some (form_class v) ->
  @get_form_class F1 v = @get_form_class F2 v.
Proof.
  intros [fc Hfc]. unfold get_form_class.
  rewrite !truthy_form_class, Hfc. reflexivity.
Qed.

Lemma get_form_class_without_framework_witness :
  let v :=
    {| class_name := "ProductDetail"; viewset := None;
       form_class_attr := TrueFormClass (CustomForm "ProductForm");
       layout := None; fields := None; model := None; object := None;
       request := Sample.request_with []; template_name := None;
       template_name_suffix := "_detail" |} in
  @get_form_class Sample.django v = @get_form_class django_without_queryset v.
Proof.
  intros v.
  apply (get_form_class_without_framework Sample.django
           django_without_queryset v).
  by exists (CustomForm "ProductForm").
Defined.

(** X11.  With a model configured, or a current object, the queryset is
    not asked: two frameworks with the same form factory give the same
    result, whatever their queryset lookups do. *)
Theorem get_form_class_without_queryset (F1 F2 : Framework) (v : View) :
  @modelform_factory F1 = @modelform_factory F2 ->
  is_Some (model v) \/ is_Some (object v) ->
  @get_form_class F1 v = @get_form_class F2 v.
Proof.
  intros Hfactory Hknown.
  assert (Hresolve : @resolve_model F1 v = @resolve_model F2 v).
  { unfold resolve_model.
    destruct (model v); [reflexivity|].
    destruct (object v); [reflexivity|].
    destruct Hknown as [[? Hsome]|[? Hsome]]; discriminate Hsome. }
  unfold get_form_class. rewrite Hresolve, Hfactory. reflexivity.
Qed.

Lemma get_form_class_without_queryset_witness :
  let v := with_model None (Sample.lamp_view (Sample.request_with [])) in
  @get_form_class django_without_queryset v =
    ok (ModelForm Sample.product (FieldsStr "__all__")).
Proof.
  intros v.
  rewrite <- (get_form_class_without_queryset Sample.django
                django_without_queryset v);
    [reflexivity | reflexivity | right; by exists Sample.lamp].
Defined.

(** X12.  With a model configured, the current object has no part in
    [get_form_class]: the form class is the one of the configured model,
    also when the object is of another class or missing. *)
Theorem get_form_class_explicit_model `{Framework} (v : View)
    (o : option Instance) :
  is_Some (model v) ->
  get_form_class (with_object o v) = get_form_class v.
Proof.
  intros [m Hm]. unfold get_form_class, resolve_model. simpl.
  rewrite Hm. reflexivity.
Qed.

Lemma get_form_class_explicit_model_witness :
  let v := Sample.lamp_view (Sample.request_with []) in
  @get_form_class Sample.django (with_object None v) =
    ok (ModelForm Sample.product (FieldsStr "__all__")).
Proof.
  intros v.
  rewrite (@get_form_class_explicit_model Sample.django v None);
    [reflexivity | by exists Sample.product].
Defined.

(** ** [get_context_data], step by step *)

(** A call of [get_context_data] that returns has gone through every step:
    the model, the two checks, the two links, the form class, the form, and
    the base method, which is given the keyword arguments so extended. *)
Lemma get_context_data_inv `{Framework} (v : View)
    (kwargs ctx : gmap string ctx_value) :
  get_context_data v kwargs = ok ctx ->
  exists opts chg del fc form kw1 kw2,
    model_meta v = ok opts /\
    has_change_permission v (request v) (object v) = ok chg /\
    has_delete_permission v (request v) (object v) = ok del /\
    get_form_class v = ok fc /\
    instantiate fc (object v) = inr form /\
    link v opts "_change" "change_url" chg
      (<["object_data" := CObjectData (get_object_data v)]> kwargs) kw1 /\
    link v opts "_delete" "delete_url" del kw1 kw2 /\
    super_get_context_data v (<["form" := CForm form]> kw2) = inr ctx.
Proof.
  intros Hctx. unfold get_context_data in Hctx.
  bind_inv Hctx. bind_inv Hctx. bind_inv Hctx. bind_inv Hctx. bind_inv Hctx.
  bind_inv Hctx.
  destruct (instantiate f (object v)) as [msg|form] eqn:Hform;
    simpl in Hctx; [discriminate Hctx|].
  destruct (super_get_context_data v _) as [msg|ctx'] eqn:Hsuper;
    simpl in Hctx; [discriminate Hctx|].
  injection Hctx as ->.
  assert (Hlink : forall suffix key allowed kw kw',
            (if allowed : bool then
               let* k := object_pk v in
               let* url :=
                 call (reverse (app_label o +:+ ":" +:+ model_name o +:+ suffix)
                               [k]) in
               ok (<[key := CUrl url]> kw)
             else ok kw) = inr kw' ->
            link v o suffix key allowed kw kw').
  { intros suffix key allowed kw kw' Hstep. unfold link.
    destruct allowed; [|by injection Hstep as <-].
    unfold object_pk in Hstep.
    destruct (object v) as [obj|]; simpl in Hstep; [|discriminate Hstep].
    destruct (reverse _ _) as [msg|url] eqn:Hurl; simpl in Hstep;
      [discriminate Hstep|].
    injection Hstep as <-. by exists obj, url. }
  exists o, b, b0, f, form, g, g0.
  repeat split; try done; by apply Hlink.
Qed.

(** X13.  [get_context_data] returns a context only for a view that has a
    model, that has one of [fields] and [form_class] set and not both, and
    that has a current object whenever one of the two links is made. *)
Theorem get_context_data_requires `{Framework} (v : View)
    (kwargs ctx : gmap string ctx_value) :
  get_context_data v kwargs = ok ctx ->
  is_Some (model v) /\
  (is_Some (fields v) \/ is_Some (form_class v)) /\
  ~ (is_Some (fields v) /\ is_Some (form_class v)) /\
  (has_change_permission v (request v) (object v) = ok true \/
   has_delete_permission v (request v) (object v) = ok true ->
   is_Some (object v)).
Proof.
  intros Hctx.
  destruct (get_context_data_inv v kwargs ctx Hctx)
    as (opts & chg & del & fc & form & kw1 & kw2 &
        Hmeta & Hchg & Hdel & Hfc & _ & Hlink1 & Hlink2 & _).
  split; [|split; [|split]].
  - unfold model_meta in Hmeta. destruct (model v); [eauto | discriminate].
  - destruct (fields v) as [fs|] eqn:Hfs; [left; eauto|].
    destruct (form_class v) as [fc'|] eqn:Hform; [right; eauto|].
    rewrite (get_form_class_neither v Hfs Hform) in Hfc.
    destruct (resolve_model v); discriminate Hfc.
  - intros [[fs Hfs] [fc' Hform]].
    rewrite (get_form_class_both v fs fc' Hfs Hform) in Hfc. discriminate Hfc.
  - intros [Htrue|Htrue].
    + rewrite Htrue in Hchg. injection Hchg as <-.
      destruct Hlink1 as (obj & _ & -> & _). eauto.
    + rewrite Htrue in Hdel. injection Hdel as <-.
      destruct Hlink2 as (obj & _ & -> & _). eauto.
Qed.

Lemma get_context_data_requires_witness :
  let v := Sample.lamp_view (Sample.request_with ["shop.change_product"]) in
  is_Some (model v) /\
  (is_Some (fields v) \/ is_Some (form_class v)) /\
  ~ (is_Some (fields v) /\ is_Some (form_class v)) /\
  (has_change_permission v (request v) (object v) = ok true \/
   has_delete_permission v (request v) (object v) = ok true ->
   is_Some (object v)).
Proof.
  intros v.
  destruct (@get_context_data Sample.django v ∅) as [e|ctx] eqn:Hctx;
    [vm_compute in Hctx; discriminate Hctx|].
  exact (@get_context_data_requires Sample.django v ∅ ctx Hctx).
Defined.

(** X14.  Over a base method that keeps the entries it is given, the
    context holds the generator of [get_object_data] under [object_data]
    and the form of [get_form_class], made for the current object, under
    [form], whatever the caller passed under these two keys; and every
    entry the caller passed under another key than the four of
    [get_context_data] is in the context as passed. *)
Theorem get_context_data_entries `{Framework} (v : View)
    (kwargs ctx : gmap string ctx_value) :
  (forall kw, super_get_context_data v kw = inr ctx -> kw ⊆ ctx) ->
  get_context_data v kwargs = ok ctx ->
  ctx !! "object_data" = Some (CObjectData (get_object_data v)) /\
  (exists fc form,
     get_form_class v = ok fc /\ instantiate fc (object v) = inr form /\
     ctx !! "form" = Some (CForm form)) /\
  (forall k x,
     kwargs !! k = Some x ->
     k <> "object_data" -> k <> "change_url" -> k <> "delete_url" ->
     k <> "form" ->
     ctx !! k = Some x).
Proof.
  intros Hsuper Hctx.
  destruct (get_context_data_inv v kwargs ctx Hctx)
    as (opts & chg & del & fc & form & kw1 & kw2 &
        _ & _ & _ & Hfc & Hform & Hlink1 & Hlink2 & Hbase).
  apply Hsuper in Hbase.
  assert (Hkw1 : forall k, k <> "change_url" ->
            kw1 !! k =
            (<["object_data" := CObjectData (get_object_data v)]> kwargs) !! k).
  { intros k Hk. unfold link in Hlink1. destruct chg; [|by subst].
    destruct Hlink1 as (obj & url & _ & _ & ->). by rewrite lookup_insert_ne. }
  assert (Hkw2 : forall k, k <> "delete_url" -> kw2 !! k = kw1 !! k).
  { intros k Hk. unfold link in Hlink2. destruct del; [|by subst].
    destruct Hlink2 as (obj & url & _ & _ & ->). by rewrite lookup_insert_ne. }
  split; [|split].
  - eapply lookup_weaken; [|exact Hbase].
    rewrite lookup_insert_ne, Hkw2, Hkw1 by done. apply lookup_insert_eq.
  - exists fc, form. repeat split; try done.
    eapply lookup_weaken; [|exact Hbase].
    apply lookup_insert_eq.
  - intros k x Hk Hne1 Hne2 Hne3 Hne4.
    eapply lookup_weaken; [|exact Hbase].
    rewrite lookup_insert_ne, Hkw2, Hkw1, lookup_insert_ne by done. exact Hk.
Qed.

(** The base method of the sample framework keeps what it is given. *)
Lemma django_context_extends (v : View) (kw ctx : gmap string ctx_value) :
  @super_get_context_data Sample.django v kw = inr ctx -> kw ⊆ ctx.
Proof.
  simpl.
  set (base := match object v with
               | Some obj => {[ "object" := CObject obj ]}
               | None => ∅
               end : gmap string ctx_value).
  destruct ((kw ∪ base) !! "view") eqn:Hview; intros [= <-].
  - apply map_union_subseteq_l.
  - transitivity (kw ∪ base); [apply map_union_subseteq_l|].
    by apply insert_subseteq.
Qed.

Lemma get_context_data_entries_witness :
  let v := Sample.lamp_view (Sample.request_with ["shop.change_product"]) in
  let passed : gmap string ctx_value :=
    <["object_data" := CUrl "stale"]> (<["title" := CUrl "Lamps"]> ∅) in
  exists ctx,
    @get_context_data Sample.django v passed = ok ctx /\
    ctx !! "object_data" = Some (CObjectData (get_object_data v)) /\
    ctx !! "title" = Some (CUrl "Lamps").
Proof.
  intros v passed.
  destruct (@get_context_data Sample.django v passed) as [e|ctx] eqn:Hctx;
    [vm_compute in Hctx; discriminate Hctx|].
  exists ctx. split; [reflexivity|].
  destruct (@get_context_data_entries Sample.django v passed ctx)
    as (Hdata & _ & Hkept);
    [intros kw; apply django_context_extends | exact Hctx |].
  split; [exact Hdata|].
  by apply Hkept.
Defined.






(** X17.  With no viewset, a context that shows the change link is a
    context for an object the user may view: over a base method that adds
    no [change_url] of its own, and keyword arguments that carry none, a
    [change_url] in the context means that [has_view_permission] is true
    for the current object. *)
Theorem change_link_implies_view `{Framework} (v : View)
    (kwargs ctx : gmap string ctx_value) :
  viewset v = None ->
  kwargs !! "change_url" = None ->
  (forall kw, super_get_context_data v kw = inr ctx ->
     is_Some (ctx !! "change_url") -> is_Some (kw !! "change_url")) ->
  get_context_data v kwargs = ok ctx ->
  is_Some (ctx !! "change_url") ->
  has_view_permission v (request v) (object v) = ok true.
Proof.
  intros Hvs Hnone Hsuper Hctx Hlinked.
  destruct (get_context_data_inv v kwargs ctx Hctx)
    as (opts & chg & del & fc & form & kw1 & kw2 &
        Hmeta & Hchg & _ & _ & _ & Hlink1 & Hlink2 & Hbase).
  apply (Hsuper _ Hbase) in Hlinked.
  rewrite lookup_insert_ne in Hlinked by done.
  assert (Hkw1 : is_Some (kw1 !! "change_url")).
  { unfold link in Hlink2. destruct del; [|by subst].
    destruct Hlink2 as (? & ? & _ & _ & ->).
    by rewrite lookup_insert_ne in Hlinked. }
  assert (Htrue : chg = true).
  { destruct chg; [reflexivity|]. unfold link in Hlink1. subst kw1.
    rewrite lookup_insert_ne, Hnone in Hkw1 by done.
    by destruct Hkw1. }
  subst chg.
  unfold model_meta in Hmeta.
  destruct (model v) as [m|] eqn:Hm; [|discriminate Hmeta].
  rewrite (has_view_permission_default v _ _ m Hvs Hm).
  rewrite (has_change_permission_default v _ _ m Hvs Hm) in Hchg.
  injection Hchg as ->. by rewrite orb_true_r.
Qed.

Lemma change_link_implies_view_witness :
  let v := Sample.lamp_view (Sample.request_with ["shop.change_product"]) in
  has_view_permission v (request v) (object v) = ok true.
Proof.
  intros v.
  destruct (@get_context_data Sample.django v ∅) as [e|ctx] eqn:Hctx;
    [vm_compute in Hctx; discriminate Hctx|].
  apply (@change_link_implies_view Sample.django v ∅ ctx);
    [reflexivity | reflexivity | | exact Hctx | ].
  - intros kw Hsuper. by apply (django_context_keys v kw ctx).
  - vm_compute in Hctx. injection Hctx as <-. vm_compute. eauto.
Defined.

(** ** [get_template_names] without a model *)

(** X18.  [get_template_names] fails exactly when the view has neither a
    template name nor a model, with the [AttributeError] of reading [_meta]
    on [None]; a configured template name needs no model. *)
Theorem get_template_names_raises (v : View) (e : exn) :
  get_template_names v = raise e <->
  template_name v = None /\ model v = None /\ e = AttributeError "_meta".
Proof.
  unfold get_template_names, model_meta. split.
  - destruct (template_name v); [discriminate|].
    destruct (model v); simpl; [discriminate|].
    by intros [= <-].
  - by intros (-> & -> & ->).
Qed.
